(** * The dispatch demo of lal: stream directory and cascade pull

    A shallow embedding of [app/demo/dispatch/dispatch.go].  The HTTP
    handlers of that file share one map from stream names to server ids
    ([stream2ServerID]) behind one [sync.Mutex]; the subscribe handler may
    post a [start_pull] command to a node of the cluster.

    Every handler is a function on an explicit [State]: the shared map, the
    mutex, and the chronological trace of what the handler did to the
    outside world (log lines, lock operations, outbound posts).  The server
    runs each request in a goroutine of its own; all accesses to the shared
    map sit between [mutex.Lock] and the deferred [mutex.Unlock], so a run
    of the server is modelled as the handlers applied one after another. *)

From Stdlib Require Import String Ascii Bool List.
From stdpp Require Import base option gmap strings list.
Import ListNotations.
Local Open Scope string_scope.

(** ** Go library functions used by the program *)

(** [strings.HasPrefix(s, prefix)]. *)
Fixpoint strings_HasPrefix (s prefix : string) {struct prefix} : bool :=
  match prefix, s with
  | EmptyString, _ => true
  | String _ _, EmptyString => false
  | String c prefix', String d s' => Ascii.eqb c d && strings_HasPrefix s' prefix'
  end.

(** [strings.Contains(s, substr)]: [substr] occurs somewhere within [s]. *)
Fixpoint strings_Contains (s substr : string) : bool :=
  strings_HasPrefix s substr ||
  match s with
  | EmptyString => false
  | String _ s' => strings_Contains s' substr
  end.

(** The two-value map index [v, exist := m[k]]: the zero value and [false]
    when the key is absent. *)
Definition map_index {V : Type} (zero : V) (m : gmap string V) (k : string) : V * bool :=
  match m !! k with
  | Some v => (v, true)
  | None => (zero, false)
  end.

(** ** Types of package [base] *)

Module PubStartInfo.
(** Modelled from the spec: the declaration of [base.PubStartInfo] is not
    part of the sources at hand; the fields are those the handler reads
    (the stream key and the reporting node). *)
Record t : Type := mk { StreamName : string; ServerID : string }.
End PubStartInfo.

Module PubStopInfo.
(** Modelled from the spec: the declaration of [base.PubStopInfo] is not
    part of the sources at hand; the fields are those the handler reads. *)
Record t : Type := mk { StreamName : string; ServerID : string }.
End PubStopInfo.

Module SubStartInfo.
(** Modelled from the spec: the declaration of [base.SubStartInfo] is not
    part of the sources at hand; the fields are those the handler reads
    (stream key, requesting node, application name, the flag for a local
    input session and the raw parameter string). *)
Record t : Type := mk {
  ServerID : string;
  AppName : string;
  StreamName : string;
  URLParam : string;
  HasInSession : bool }.
End SubStartInfo.

Module SubStopInfo.
(** Modelled from the spec: the declaration of [base.SubStopInfo] is not
    part of the sources at hand; no field of it is read. *)
Record t : Type := mk { StreamName : string; ServerID : string }.
End SubStopInfo.

Module UpdateInfo.
(** Modelled from the spec: the declaration of [base.UpdateInfo] is not
    part of the sources at hand; it is a snapshot no field of which is
    read, kept opaque here. *)
Record t : Type := mk { snapshot : list string }.
End UpdateInfo.

Module APICtrlStartPullReq.
(** Modelled from the spec: the declaration of [base.APICtrlStartPullReq]
    is not part of the sources at hand; the fields are the five the
    handler assigns. *)
Record t : Type := mk {
  Protocol : string;
  Addr : string;
  AppName : string;
  StreamName : string;
  URLParam : string }.
End APICtrlStartPullReq.

(** ** Configuration *)

Record Server : Type := mkServer { rtmpAddr : string; apiAddr : string }.

(** The zero value of the struct, what [serverID2Server[k]] yields for an
    absent key. *)
Definition Server_zero : Server := {| rtmpAddr := ""; apiAddr := "" |}.

(** The package-level [// config] variables. *)
Record Config : Type := mkConfig {
  listenAddr : string;
  serverID2Server : gmap string Server;
  pullSecretParam : string }.

(** The values the source gives them. *)
Definition config : Config :=
  {| listenAddr := ":10101";
     serverID2Server :=
       <["1" := {| rtmpAddr := "127.0.0.1:19350"; apiAddr := "127.0.0.1:8083" |}]>
       (<["2" := {| rtmpAddr := "127.0.0.1:19550"; apiAddr := "127.0.0.1:8283" |}]> ∅);
     pullSecretParam := "lal_cluster_inner_pull=1" |}.

(** ** State and effects *)

Inductive Level : Type := INFO | ERROR.

(** What a handler does that is visible from outside, in the order it does
    it. *)
Inductive Effect : Type :=
| EvLog (lvl : Level) (format : string)
| EvLock
| EvUnlock
| EvPostJson (url : string) (b : APICtrlStartPullReq.t).

Record State : Type := mkState {
  stream2ServerID : gmap string string;
  mutex : bool;                         (* true while the mutex is held *)
  trace : list Effect }.

Definition emit (e : Effect) (s : State) : State :=
  {| stream2ServerID := stream2ServerID s;
     mutex := mutex s;
     trace := (trace s ++ [e])%list |}.

(** ** A monad for function bodies

    A statement either falls through to the next one ([Next]) or executes
    [return] ([Returned]); [None] is a goroutine that never completes: it
    blocks for ever on a mutex that is held, or the runtime aborts on
    unlocking a mutex that is not. *)

Inductive Flow (A : Type) : Type :=
| Next (a : A)
| Returned.
Arguments Next {A} a.
Arguments Returned {A}.

Definition Go (A : Type) : Type := State -> option (Flow A * State).

Definition go_ret {A : Type} (a : A) : Go A := fun s => Some (Next a, s).

Definition go_bind {A B : Type} (f : A -> Go B) (m : Go A) : Go B :=
  fun s =>
    match m s with
    | None => None
    | Some (Next a, s') => f a s'
    | Some (Returned, s') => Some (Returned, s')
    end.

#[global] Instance Go_ret : MRet Go := @go_ret.
#[global] Instance Go_bind : MBind Go := @go_bind.

(** The [return] statement. *)
Definition go_return {A : Type} : Go A := fun s => Some (Returned, s).

(** [if c { body }] with no else branch. *)
Definition go_if (c : bool) (body : Go unit) : Go unit :=
  if c then body else mret tt.

(** [defer d] followed by the rest of the function body: [d] runs when the
    function returns, by [return] or by reaching its end. *)
Definition defer (d : Go unit) (rest : Go unit) : Go unit :=
  fun s =>
    match rest s with
    | None => None
    | Some (fl, s') =>
        match d s' with
        | None => None
        | Some (_, s'') => Some (fl, s'')
        end
    end.

(** A whole function call: the state it leaves. *)
Definition func (body : Go unit) : State -> option State :=
  fun s =>
    match body s with
    | None => None
    | Some (_, s') => Some s'
    end.

(** ** Primitive statements *)

Definition nazalog_Infof (format : string) : Go unit :=
  fun s => Some (Next tt, emit (EvLog INFO format) s).

Definition nazalog_Errorf (format : string) : Go unit :=
  fun s => Some (Next tt, emit (EvLog ERROR format) s).

(** [nazalog.Error(err)]. *)
Definition nazalog_Error : Go unit :=
  fun s => Some (Next tt, emit (EvLog ERROR "err") s).

Definition mutex_Lock : Go unit :=
  fun s =>
    if mutex s then None
    else Some (Next tt,
               {| stream2ServerID := stream2ServerID s;
                  mutex := true;
                  trace := (trace s ++ [EvLock])%list |}).

Definition mutex_Unlock : Go unit :=
  fun s =>
    if mutex s
    then Some (Next tt,
               {| stream2ServerID := stream2ServerID s;
                  mutex := false;
                  trace := (trace s ++ [EvUnlock])%list |})
    else None.

(** [stream2ServerID[k] = v]. *)
Definition stream2ServerID_store (k v : string) : Go unit :=
  fun s =>
    Some (Next tt,
          {| stream2ServerID := <[k := v]> (stream2ServerID s);
             mutex := mutex s;
             trace := trace s |}).

(** [v, exist := stream2ServerID[k]]. *)
Definition stream2ServerID_index (k : string) : Go (string * bool) :=
  fun s => Some (Next (map_index "" (stream2ServerID s) k), s).

(** [delete(stream2ServerID, k)]. *)
Definition stream2ServerID_delete (k : string) : Go unit :=
  fun s =>
    Some (Next tt,
          {| stream2ServerID := delete k (stream2ServerID s);
             mutex := mutex s;
             trace := trace s |}).

(** ** The handlers *)

Section Handlers.

(** The configuration in force. *)
Variable cfg : Config.

(** The constant [base.ProtocolRTMP], declared outside the sources at
    hand. *)
Variable ProtocolRTMP : string.

(** The network: whether [nazahttp.PostJson(url, b, nil)] comes back
    with [err != nil]. *)
Variable PostJson_err : string -> APICtrlStartPullReq.t -> bool.

Definition nazahttp_PostJson (url : string) (b : APICtrlStartPullReq.t) : Go bool :=
  fun s => Some (Next (PostJson_err url b), emit (EvPostJson url b) s).

(** In every handler the argument [r] is the outcome of
    [nazahttp.UnmarshalRequestJsonBody(r, &info)]: [Some info], or [None]
    when it returns an error.  The request id only decorates log lines
    and is left out. *)

Definition OnPubStartHandler (r : option PubStartInfo.t) : State -> option State :=
  func (
    match r with
    | None => nazalog_Error;; go_return
    | Some info =>
        nazalog_Infof "[%s] on_pub_start. info=%+v";;
        mutex_Lock;;
        defer mutex_Unlock (
          nazalog_Infof "[%s] add to cache.";;
          stream2ServerID_store info.(PubStartInfo.StreamName) info.(PubStartInfo.ServerID))
    end).

Definition OnPubStopHandler (r : option PubStopInfo.t) : State -> option State :=
  func (
    match r with
    | None => nazalog_Error;; go_return
    | Some info =>
        nazalog_Infof "[%s] on_pub_stop. info=%+v";;
        mutex_Lock;;
        defer mutex_Unlock (
          '(serverID, exist_) ← stream2ServerID_index info.(PubStopInfo.StreamName);
          go_if (negb exist_ || negb (String.eqb serverID info.(PubStopInfo.ServerID))) (
            nazalog_Errorf "[%s] OnPubStopHandler. req id=%s, cache id=%s";;
            go_return);;
          stream2ServerID_delete serverID)
    end).

Definition OnSubStartHandler (r : option SubStartInfo.t) : State -> option State :=
  func (
    match r with
    | None => nazalog_Error;; go_return
    | Some info =>
        nazalog_Infof "[%s] on_sub_start. info=%+v";;
        go_if (strings_Contains info.(SubStartInfo.URLParam) (pullSecretParam cfg)) (
          nazalog_Infof "[%s] sub is pull by other node, ignore.";;
          go_return);;
        go_if info.(SubStartInfo.HasInSession) (
          nazalog_Infof "[%s] in not empty, ignore.";;
          go_return);;
        mutex_Lock;;
        defer mutex_Unlock (
          let '(reqServer, exist_) :=
            map_index Server_zero (serverID2Server cfg) info.(SubStartInfo.ServerID) in
          go_if (negb exist_) (
            nazalog_Errorf "[%s] req server id invalid.";;
            go_return);;
          '(pubServerID, exist_) ← stream2ServerID_index info.(SubStartInfo.StreamName);
          go_if (negb exist_) (
            nazalog_Infof "[%s] pub not exist, ignore.";;
            go_return);;
          let '(pubServer, exist_) :=
            map_index Server_zero (serverID2Server cfg) pubServerID in
          go_if (negb exist_) (
            nazalog_Errorf "[%s] pub server id invalid. serverID=%s";;
            go_return);;
          let url := "http://" +:+ apiAddr reqServer +:+ "/api/ctrl/start_pull" in
          let b :=
            {| APICtrlStartPullReq.Protocol := ProtocolRTMP;
               APICtrlStartPullReq.Addr := rtmpAddr pubServer;
               APICtrlStartPullReq.AppName := info.(SubStartInfo.AppName);
               APICtrlStartPullReq.StreamName := info.(SubStartInfo.StreamName);
               APICtrlStartPullReq.URLParam := pullSecretParam cfg |} in
          nazalog_Infof "[%s] ctrl pull. send to %s with %+v";;
          err ← nazahttp_PostJson url b;
          go_if err (nazalog_Errorf "[%s] post json error. err=%+v"))
    end).

Definition OnSubStopHandler (r : option SubStopInfo.t) : State -> option State :=
  func (
    match r with
    | None => nazalog_Error;; go_return
    | Some info => nazalog_Infof "[%s] on_sub_stop. info=%+v"
    end).

Definition OnUpdateHandler (r : option UpdateInfo.t) : State -> option State :=
  func (
    match r with
    | None => nazalog_Error;; go_return
    | Some info => nazalog_Infof "[%s] on_update. info=%+v"
    end).

(** ** The server *)

(** A request, by the route [main] registers for it. *)
Inductive Request : Type :=
| on_pub_start (body : option PubStartInfo.t)
| on_pub_stop (body : option PubStopInfo.t)
| on_sub_start (body : option SubStartInfo.t)
| on_sub_stop (body : option SubStopInfo.t)
| on_update (body : option UpdateInfo.t).

(** The [http.ServeMux] built by [main]. *)
Definition ServeMux (r : Request) : State -> option State :=
  match r with
  | on_pub_start body => OnPubStartHandler body
  | on_pub_stop body => OnPubStopHandler body
  | on_sub_start body => OnSubStartHandler body
  | on_sub_stop body => OnSubStopHandler body
  | on_update body => OnUpdateHandler body
  end.

(** The requests served one after another. *)
Fixpoint Serve (rs : list Request) (s : State) : option State :=
  match rs with
  | [] => Some s
  | r :: rs' =>
      match ServeMux r s with
      | None => None
      | Some s' => Serve rs' s'
      end
  end.

End Handlers.

(** The state [main] starts from: [stream2ServerID = make(map[string]string)]
    and a mutex nobody holds. *)
Definition main_State : State :=
  {| stream2ServerID := ∅; mutex := false; trace := [] |}.

(** ** Reading a state or a trace *)

(** The owner of a stream, as the directory has it. *)
Definition Lookup (s : State) (key : string) : option string :=
  stream2ServerID s !! key.

(** The outbound posts of a trace, in order. *)
Fixpoint dispatches (tr : list Effect) : list (string * APICtrlStartPullReq.t) :=
  match tr with
  | [] => []
  | EvPostJson url b :: tr' => (url, b) :: dispatches tr'
  | _ :: tr' => dispatches tr'
  end.

(** Replays the lock operations of a trace, starting with the mutex
    [held] or not: [true] when every outbound post in it is made while the
    mutex is not held. *)
Fixpoint posts_outside_lock (held : bool) (tr : list Effect) : bool :=
  match tr with
  | [] => true
  | EvLock :: tr' => posts_outside_lock true tr'
  | EvUnlock :: tr' => posts_outside_lock false tr'
  | EvPostJson _ _ :: tr' => negb held && posts_outside_lock held tr'
  | EvLog _ _ :: tr' => posts_outside_lock held tr'
  end.

(** Its dual: [true] when every outbound post in the trace is made while
    the mutex is held. *)
Fixpoint posts_inside_lock (held : bool) (tr : list Effect) : bool :=
  match tr with
  | [] => true
  | EvLock :: tr' => posts_inside_lock true tr'
  | EvUnlock :: tr' => posts_inside_lock false tr'
  | EvPostJson _ _ :: tr' => held && posts_inside_lock held tr'
  | EvLog _ _ :: tr' => posts_inside_lock held tr'
  end.

(** The command of a cascade pull and where it is posted, as
    [OnSubStartHandler] builds them. *)
Definition start_pull_url (reqServer : Server) : string :=
  "http://" +:+ apiAddr reqServer +:+ "/api/ctrl/start_pull".

Definition start_pull_req (cfg : Config) (ProtocolRTMP : string)
    (info : SubStartInfo.t) (pubServer : Server) : APICtrlStartPullReq.t :=
  {| APICtrlStartPullReq.Protocol := ProtocolRTMP;
     APICtrlStartPullReq.Addr := rtmpAddr pubServer;
     APICtrlStartPullReq.AppName := info.(SubStartInfo.AppName);
     APICtrlStartPullReq.StreamName := info.(SubStartInfo.StreamName);
     APICtrlStartPullReq.URLParam := pullSecretParam cfg |}.

(** Everything the subscribe handler does on the path that reaches the
    post. *)
Definition cascade_effects (cfg : Config) (ProtocolRTMP : string)
    (PostJson_err : string -> APICtrlStartPullReq.t -> bool)
    (info : SubStartInfo.t) (reqServer pubServer : Server) : list Effect :=
  let url := start_pull_url reqServer in
  let b := start_pull_req cfg ProtocolRTMP info pubServer in
  ([EvLog INFO "[%s] on_sub_start. info=%+v"; EvLock;
    EvLog INFO "[%s] ctrl pull. send to %s with %+v"; EvPostJson url b] ++
   (if PostJson_err url b then [EvLog ERROR "[%s] post json error. err=%+v"] else []) ++
   [EvUnlock])%list.

(** ** Scenarios *)

(** The directory after stream [match1] was published on node [A]. *)
Definition match1_on_A : State :=
  {| stream2ServerID := <["match1" := "A"]> ∅; mutex := false; trace := [] |}.

(** Stream [s] published on node [1] of the configured cluster. *)
Definition s_on_1 : State :=
  {| stream2ServerID := <["s" := "1"]> ∅; mutex := false; trace := [] |}.

(** A network on which every post succeeds. *)
Definition net_up : string -> APICtrlStartPullReq.t -> bool := fun _ _ => false.

(** An organic subscribe for [s] arriving at node [2]. *)
Definition sub_s_at_2 : SubStartInfo.t :=
  {| SubStartInfo.ServerID := "2";
     SubStartInfo.AppName := "live";
     SubStartInfo.StreamName := "s";
     SubStartInfo.URLParam := "";
     SubStartInfo.HasInSession := false |}.

(** A subscribe for [s] arriving at node [1], the node that publishes it. *)
Definition sub_s_at_1 : SubStartInfo.t :=
  {| SubStartInfo.ServerID := "1";
     SubStartInfo.AppName := "live";
     SubStartInfo.StreamName := "s";
     SubStartInfo.URLParam := "";
     SubStartInfo.HasInSession := false |}.

(** The subscribe node [2] itself emits while it pulls [s]. *)
Definition sub_s_cascaded : SubStartInfo.t :=
  {| SubStartInfo.ServerID := "2";
     SubStartInfo.AppName := "live";
     SubStartInfo.StreamName := "s";
     SubStartInfo.URLParam := "lal_cluster_inner_pull=1";
     SubStartInfo.HasInSession := false |}.

(** A subscribe for [s] arriving at node [2], which publishes [s] too. *)
Definition sub_s_local : SubStartInfo.t :=
  {| SubStartInfo.ServerID := "2";
     SubStartInfo.AppName := "live";
     SubStartInfo.StreamName := "s";
     SubStartInfo.URLParam := "";
     SubStartInfo.HasInSession := true |}.

(** The command that tells a node to pull [s] from node [1]. *)
Definition pull_s_from_1 : APICtrlStartPullReq.t :=
  {| APICtrlStartPullReq.Protocol := "RTMP";
     APICtrlStartPullReq.Addr := "127.0.0.1:19350";
     APICtrlStartPullReq.AppName := "live";
     APICtrlStartPullReq.StreamName := "s";
     APICtrlStartPullReq.URLParam := "lal_cluster_inner_pull=1" |}.

(** What the handler does for [sub_s_at_2] in [s_on_1], and the state it
    leaves. *)
Definition sub_s_at_2_effects : list Effect :=
  [EvLog INFO "[%s] on_sub_start. info=%+v"; EvLock;
   EvLog INFO "[%s] ctrl pull. send to %s with %+v";
   EvPostJson "http://127.0.0.1:8283/api/ctrl/start_pull" pull_s_from_1;
   EvUnlock].

Definition s_on_1_after_sub : State :=
  {| stream2ServerID := <["s" := "1"]> ∅; mutex := false; trace := sub_s_at_2_effects |}.

(** A request leaves the owner of [key] alone unless it is a publish-start
    for [key] or a publish-stop reported by a node whose id is [key]. *)
Definition spares (key : string) (r : Request) : Prop :=
  match r with
  | on_pub_start (Some info) => info.(PubStartInfo.StreamName) <> key
  | on_pub_stop (Some info) => info.(PubStopInfo.ServerID) <> key
  | _ => True
  end.

(** ** Reading a request or a run *)

(** The requests whose body does not unmarshal. *)
Definition malformed (r : Request) : bool :=
  match r with
  | on_pub_start None | on_pub_stop None | on_sub_start None
  | on_sub_stop None | on_update None => true
  | _ => false
  end.

(** The requests routed to a handler that writes to [stream2ServerID]. *)
Definition publishes (r : Request) : bool :=
  match r with
  | on_pub_start (Some _) | on_pub_stop (Some _) => true
  | _ => false
  end.

(** The requests routed to the one handler that calls [PostJson]. *)
Definition subscribes (r : Request) : bool :=
  match r with
  | on_sub_start (Some _) => true
  | _ => false
  end.

(** Replays the lock operations of a trace from a mutex [held] or not: the
    mutex at the end, or [None] where the trace locks a mutex that is held
    or unlocks one that is not. *)
Fixpoint replay_mutex (held : bool) (tr : list Effect) : option bool :=
  match tr with
  | [] => Some held
  | EvLock :: tr' => if held then None else replay_mutex true tr'
  | EvUnlock :: tr' => if held then replay_mutex false tr' else None
  | EvLog _ _ :: tr' => replay_mutex held tr'
  | EvPostJson _ _ :: tr' => replay_mutex held tr'
  end.

(** A network on which every post fails. *)
Definition net_down : string -> APICtrlStartPullReq.t -> bool := fun _ _ => true.

(** A subscribe for [s] arriving at a node the registry does not know. *)
Definition sub_s_at_9 : SubStartInfo.t :=
  {| SubStartInfo.ServerID := "9";
     SubStartInfo.AppName := "live";
     SubStartInfo.StreamName := "s";
     SubStartInfo.URLParam := "";
     SubStartInfo.HasInSession := false |}.

(** A run of the server: [s] is published on node [1], node [2] asks for
    it and then reports its own pull, a request that does not unmarshal
    arrives, and node [1] stops a stream called [t]. *)
Definition sample_requests : list Request :=
  [on_pub_start (Some (PubStartInfo.mk "s" "1"));
   on_sub_start (Some sub_s_at_2);
   on_sub_start (Some sub_s_cascaded);
   on_pub_stop None;
   on_pub_stop (Some (PubStopInfo.mk "t" "1"))].

(** The two nodes of the configured cluster. *)
Definition node_1 : Server :=
  {| rtmpAddr := "127.0.0.1:19350"; apiAddr := "127.0.0.1:8083" |}.

Definition node_2 : Server :=
  {| rtmpAddr := "127.0.0.1:19550"; apiAddr := "127.0.0.1:8283" |}.

(** ** The library functions meet their documentation *)

Lemma strings_HasPrefix_spec (s prefix : string) :
  strings_HasPrefix s prefix = true <-> exists rest, s = prefix +:+ rest.
Proof.
  revert s. induction prefix as [|c prefix IH]; intros s; simpl.
  - split; [intros _; exists s; reflexivity | reflexivity].
  - destruct s as [|d s].
    + split; [discriminate | intros [rest Hrest]; discriminate].
    + rewrite andb_true_iff, Ascii.eqb_eq, IH. split.
      * intros [-> [rest ->]]. exists rest. reflexivity.
      * intros [rest Hrest]. injection Hrest as -> ->. eauto.
Qed.

Lemma strings_Contains_spec (s substr : string) :
  strings_Contains s substr = true <->
  exists before after, s = before +:+ substr +:+ after.
Proof.
  induction s as [|d s IH]; simpl; rewrite orb_true_iff, strings_HasPrefix_spec.
  - split.
    + intros [[rest Hrest] | Hf]; [|discriminate]. exists "", rest. exact Hrest.
    + intros [before [after Heq]]. left.
      destruct before; [exists after; exact Heq | discriminate].
  - rewrite IH. split.
    + intros [[rest Hrest] | [before [after Heq]]].
      * exists "", rest. exact Hrest.
      * exists (String d before), after. rewrite Heq. reflexivity.
    + intros [before [after Heq]]. destruct before as [|c before]; simpl in Heq.
      * left. exists after. exact Heq.
      * right. injection Heq as _ ->. eauto.
Qed.

Lemma dispatches_app (tr1 tr2 : list Effect) :
  dispatches (tr1 ++ tr2)%list = (dispatches tr1 ++ dispatches tr2)%list.
Proof.
  induction tr1 as [|e tr1 IH]; simpl; [reflexivity|].
  destruct e; simpl; rewrite ?IH; reflexivity.
Qed.

(** ** What each handler computes *)

Ltac go_unfold :=
  unfold func, defer, go_if, mbind, mret, Go_bind, Go_ret, go_bind, go_ret,
    go_return, nazalog_Infof, nazalog_Errorf, nazalog_Error, mutex_Lock,
    mutex_Unlock, stream2ServerID_store, stream2ServerID_index,
    stream2ServerID_delete, nazahttp_PostJson, map_index, emit in *.

Ltac trace_norm := repeat rewrite <- app_assoc; cbn [app].

Lemma OnPubStartHandler_run (info : PubStartInfo.t) (s : State) :
  mutex s = false ->
  OnPubStartHandler (Some info) s =
  Some {| stream2ServerID :=
            <[info.(PubStartInfo.StreamName) := info.(PubStartInfo.ServerID)]>
              (stream2ServerID s);
          mutex := false;
          trace := (trace s ++
                    [EvLog INFO "[%s] on_pub_start. info=%+v"; EvLock;
                     EvLog INFO "[%s] add to cache."; EvUnlock])%list |}.
Proof.
  intros Hm. unfold OnPubStartHandler. go_unfold. cbn. rewrite Hm. cbn.
  trace_norm. reflexivity.
Qed.

Lemma OnPubStopHandler_run_stale (info : PubStopInfo.t) (s : State) :
  mutex s = false ->
  stream2ServerID s !! info.(PubStopInfo.StreamName) <> Some info.(PubStopInfo.ServerID) ->
  OnPubStopHandler (Some info) s =
  Some {| stream2ServerID := stream2ServerID s;
          mutex := false;
          trace := (trace s ++
                    [EvLog INFO "[%s] on_pub_stop. info=%+v"; EvLock;
                     EvLog ERROR "[%s] OnPubStopHandler. req id=%s, cache id=%s";
                     EvUnlock])%list |}.
Proof.
  intros Hm Hne. unfold OnPubStopHandler. go_unfold. cbn. rewrite Hm. cbn.
  destruct (stream2ServerID s !! _) as [owner|] eqn:Hown; cbn.
  - destruct (String.eqb_spec owner info.(PubStopInfo.ServerID)) as [->|Hd].
    + contradiction Hne. reflexivity.
    + cbn. trace_norm. reflexivity.
  - trace_norm. reflexivity.
Qed.

Lemma OnPubStopHandler_run_match (info : PubStopInfo.t) (s : State) :
  mutex s = false ->
  stream2ServerID s !! info.(PubStopInfo.StreamName) = Some info.(PubStopInfo.ServerID) ->
  OnPubStopHandler (Some info) s =
  Some {| stream2ServerID := delete info.(PubStopInfo.ServerID) (stream2ServerID s);
          mutex := false;
          trace := (trace s ++
                    [EvLog INFO "[%s] on_pub_stop. info=%+v"; EvLock; EvUnlock])%list |}.
Proof.
  intros Hm Hown. unfold OnPubStopHandler. go_unfold. cbn. rewrite Hm. cbn.
  rewrite Hown. cbn. rewrite String.eqb_refl. cbn. trace_norm. reflexivity.
Qed.

Section SubStart.

Variable cfg : Config.
Variable ProtocolRTMP : string.
Variable PostJson_err : string -> APICtrlStartPullReq.t -> bool.

Local Abbreviation handler := (OnSubStartHandler cfg ProtocolRTMP PostJson_err).

Lemma OnSubStartHandler_run_marker (info : SubStartInfo.t) (s : State) :
  strings_Contains info.(SubStartInfo.URLParam) (pullSecretParam cfg) = true ->
  handler (Some info) s =
  Some {| stream2ServerID := stream2ServerID s;
          mutex := mutex s;
          trace := (trace s ++
                    [EvLog INFO "[%s] on_sub_start. info=%+v";
                     EvLog INFO "[%s] sub is pull by other node, ignore."])%list |}.
Proof.
  intros Hc. unfold OnSubStartHandler. go_unfold. cbn.
  rewrite Hc. cbn. trace_norm. reflexivity.
Qed.

Lemma OnSubStartHandler_run_dispatch (info : SubStartInfo.t) (s : State)
    (reqServer : Server) (owner : string) (pubServer : Server) :
  strings_Contains info.(SubStartInfo.URLParam) (pullSecretParam cfg) = false ->
  info.(SubStartInfo.HasInSession) = false ->
  mutex s = false ->
  serverID2Server cfg !! info.(SubStartInfo.ServerID) = Some reqServer ->
  stream2ServerID s !! info.(SubStartInfo.StreamName) = Some owner ->
  serverID2Server cfg !! owner = Some pubServer ->
  handler (Some info) s =
  Some {| stream2ServerID := stream2ServerID s;
          mutex := false;
          trace := (trace s ++
                    cascade_effects cfg ProtocolRTMP PostJson_err info
                      reqServer pubServer)%list |}.
Proof.
  intros Hc Hi Hm Hreq Hown Hpub.
  unfold OnSubStartHandler, cascade_effects, start_pull_url, start_pull_req.
  go_unfold. cbn. rewrite Hc. cbn. rewrite Hi. cbn. rewrite Hm. cbn.
  rewrite Hreq. cbn. rewrite Hown. cbn. rewrite Hpub. cbn.
  destruct (PostJson_err _ _); cbn; trace_norm; reflexivity.
Qed.

(** Whatever the request and the state, a call that completes leaves the
    directory and the mutex as they were, and either posts nothing or
    went down the one path that posts. *)
Lemma OnSubStartHandler_inv (r : option SubStartInfo.t) (s s' : State) :
  handler r s = Some s' ->
  exists evs : list Effect,
    s' = {| stream2ServerID := stream2ServerID s;
            mutex := mutex s;
            trace := (trace s ++ evs)%list |} /\
    (dispatches evs = [] \/
     exists info reqServer owner pubServer,
       r = Some info /\
       strings_Contains info.(SubStartInfo.URLParam) (pullSecretParam cfg) = false /\
       info.(SubStartInfo.HasInSession) = false /\
       mutex s = false /\
       serverID2Server cfg !! info.(SubStartInfo.ServerID) = Some reqServer /\
       stream2ServerID s !! info.(SubStartInfo.StreamName) = Some owner /\
       serverID2Server cfg !! owner = Some pubServer /\
       evs = cascade_effects cfg ProtocolRTMP PostJson_err info reqServer pubServer).
Proof.
  intros H. destruct r as [info|].
  2: { unfold OnSubStartHandler in H. go_unfold. cbn in H.
       injection H as <-. eexists. split; [reflexivity | left; reflexivity]. }
  destruct (strings_Contains info.(SubStartInfo.URLParam) (pullSecretParam cfg)) eqn:Hc.
  { rewrite (OnSubStartHandler_run_marker info s Hc) in H. injection H as <-.
    eexists. split; [reflexivity | left; reflexivity]. }
  destruct (mutex s) eqn:Hm, (info.(SubStartInfo.HasInSession)) eqn:Hi;
    try (unfold OnSubStartHandler in H; go_unfold; cbn in H;
         rewrite Hc in H; cbn in H; rewrite Hi in H; cbn in H;
         rewrite ?Hm in H; cbn in H; first
           [ discriminate H
           | injection H as <-; trace_norm; rewrite <- ?Hm; eexists;
             split; [reflexivity | left; reflexivity] ]).
  destruct (serverID2Server cfg !! info.(SubStartInfo.ServerID)) as [reqServer|] eqn:Hreq;
    [destruct (stream2ServerID s !! info.(SubStartInfo.StreamName)) as [owner|] eqn:Hown;
     [destruct (serverID2Server cfg !! owner) as [pubServer|] eqn:Hpub|]|].
  - rewrite (OnSubStartHandler_run_dispatch info s reqServer owner pubServer
               Hc Hi Hm Hreq Hown Hpub) in H.
    injection H as <-. eexists. split; [reflexivity|].
    right. exists info, reqServer, owner, pubServer. repeat split; assumption.
  - unfold OnSubStartHandler in H. go_unfold. cbn in H.
    rewrite Hc in H. cbn in H. rewrite Hi in H. cbn in H. rewrite Hm in H.
    cbn in H. rewrite Hreq in H. cbn in H. rewrite Hown in H. cbn in H.
    rewrite Hpub in H. cbn in H. injection H as <-. trace_norm.
    eexists. split; [reflexivity | left; reflexivity].
  - unfold OnSubStartHandler in H. go_unfold. cbn in H.
    rewrite Hc in H. cbn in H. rewrite Hi in H. cbn in H. rewrite Hm in H.
    cbn in H. rewrite Hreq in H. cbn in H. rewrite Hown in H. cbn in H.
    injection H as <-. trace_norm.
    eexists. split; [reflexivity | left; reflexivity].
  - unfold OnSubStartHandler in H. go_unfold. cbn in H.
    rewrite Hc in H. cbn in H. rewrite Hi in H. cbn in H. rewrite Hm in H.
    cbn in H. rewrite Hreq in H. cbn in H. injection H as <-. trace_norm.
    eexists. split; [reflexivity | left; reflexivity].
Qed.

(** With the mutex free the call completes. *)
Lemma OnSubStartHandler_total (r : option SubStartInfo.t) (s : State) :
  mutex s = false -> exists s', handler r s = Some s'.
Proof.
  intros Hm. unfold OnSubStartHandler. go_unfold.
  destruct r as [info|]; cbn; [|eauto].
  destruct (strings_Contains _ _); cbn; [eauto|].
  destruct (info.(SubStartInfo.HasInSession)); cbn; [eauto|].
  rewrite Hm. cbn.
  destruct (serverID2Server cfg !! _); cbn; [|eauto].
  destruct (stream2ServerID s !! _) as [owner|]; cbn; [|eauto].
  destruct (serverID2Server cfg !! owner); cbn; [|eauto].
  destruct (PostJson_err _ _); cbn; eauto.
Qed.

End SubStart.

Lemma dispatches_cascade_effects (cfg : Config) (ProtocolRTMP : string)
    (PostJson_err : string -> APICtrlStartPullReq.t -> bool)
    (info : SubStartInfo.t) (reqServer pubServer : Server) :
  dispatches (cascade_effects cfg ProtocolRTMP PostJson_err info reqServer pubServer) =
  [(start_pull_url reqServer, start_pull_req cfg ProtocolRTMP info pubServer)].
Proof. unfold cascade_effects. destruct (PostJson_err _ _); reflexivity. Qed.

Lemma cascade_effects_inside_lock (cfg : Config) (ProtocolRTMP : string)
    (PostJson_err : string -> APICtrlStartPullReq.t -> bool)
    (info : SubStartInfo.t) (reqServer pubServer : Server) :
  let evs := cascade_effects cfg ProtocolRTMP PostJson_err info reqServer pubServer in
  posts_inside_lock false evs = true /\ posts_outside_lock false evs = false.
Proof. unfold cascade_effects. destruct (PostJson_err _ _); split; reflexivity. Qed.

(** A completed publish-stop found the mutex free and took one of its two
    paths. *)
Lemma OnPubStopHandler_inv (info : PubStopInfo.t) (s s' : State) :
  OnPubStopHandler (Some info) s = Some s' ->
  stream2ServerID s' = stream2ServerID s \/
  (stream2ServerID s !! info.(PubStopInfo.StreamName) = Some info.(PubStopInfo.ServerID) /\
   stream2ServerID s' = delete info.(PubStopInfo.ServerID) (stream2ServerID s)).
Proof.
  intros H. destruct (mutex s) eqn:Hm.
  { unfold OnPubStopHandler in H. go_unfold. cbn in H. rewrite Hm in H. discriminate H. }
  destruct (decide (stream2ServerID s !! info.(PubStopInfo.StreamName)
                    = Some info.(PubStopInfo.ServerID))) as [Hown|Hne].
  - rewrite (OnPubStopHandler_run_match info s Hm Hown) in H. injection H as <-.
    right. split; [exact Hown | reflexivity].
  - rewrite (OnPubStopHandler_run_stale info s Hm Hne) in H. injection H as <-.
    left. reflexivity.
Qed.

Lemma ServeMux_Lookup_frame (cfg : Config) (ProtocolRTMP : string)
    (PostJson_err : string -> APICtrlStartPullReq.t -> bool)
    (key : string) (r : Request) (s s' : State) :
  spares key r ->
  ServeMux cfg ProtocolRTMP PostJson_err r s = Some s' ->
  Lookup s' key = Lookup s key.
Proof.
  unfold Lookup. destruct r as [[info|]|[info|]|body|[info|]|[info|]]; simpl; intros Hsp H;
    try (unfold OnPubStartHandler, OnPubStopHandler, OnSubStopHandler, OnUpdateHandler in H;
         go_unfold; cbn in H; injection H as <-; reflexivity).
  - destruct (mutex s) eqn:Hm.
    + unfold OnPubStartHandler in H. go_unfold. cbn in H. rewrite Hm in H. discriminate H.
    + rewrite (OnPubStartHandler_run info s Hm) in H. injection H as <-. cbn.
      apply lookup_insert_ne. exact Hsp.
  - destruct (OnPubStopHandler_inv info s s' H) as [-> | [_ ->]]; [reflexivity|].
    apply lookup_delete_ne. exact Hsp.
  - destruct (OnSubStartHandler_inv _ _ _ _ _ _ H) as [evs [-> _]]. reflexivity.
Qed.

Lemma Serve_Lookup_frame (cfg : Config) (ProtocolRTMP : string)
    (PostJson_err : string -> APICtrlStartPullReq.t -> bool)
    (key : string) (rs : list Request) (s s' : State) :
  Forall (spares key) rs ->
  Serve cfg ProtocolRTMP PostJson_err rs s = Some s' ->
  Lookup s' key = Lookup s key.
Proof.
  intros Hall. revert s. induction Hall as [|r rs Hr _ IH]; intros s H; simpl in H.
  - injection H as <-. reflexivity.
  - destruct (ServeMux cfg ProtocolRTMP PostJson_err r s) as [s1|] eqn:H1;
      [|discriminate H].
    rewrite (IH s1 H). eapply ServeMux_Lookup_frame; eassumption.
Qed.

(** * The claims *)

(** ** Publish-start *)

(** C6: whatever the directory holds, also another owner for the same
    stream, a publish-start handled with the mutex free completes and
    leaves the directory as it was with the stream mapped to the reporting
    node; a lookup of the stream then yields that node. *)
Theorem OnPubStartHandler_last_writer_wins (info : PubStartInfo.t) (s : State) :
  mutex s = false ->
  exists s',
    OnPubStartHandler (Some info) s = Some s' /\
    stream2ServerID s' =
      <[info.(PubStartInfo.StreamName) := info.(PubStartInfo.ServerID)]> (stream2ServerID s) /\
    Lookup s' info.(PubStartInfo.StreamName) = Some info.(PubStartInfo.ServerID).
Proof.
  intros Hm. eexists. split; [apply OnPubStartHandler_run; exact Hm|].
  split; [reflexivity|]. unfold Lookup. cbn. apply lookup_insert_eq.
Qed.

Lemma OnPubStartHandler_last_writer_wins_witness :
  Lookup match1_on_A "match1" = Some "A" /\
  exists s',
    OnPubStartHandler (Some (PubStartInfo.mk "match1" "B")) match1_on_A = Some s' /\
    stream2ServerID s' = <["match1" := "B"]> (stream2ServerID match1_on_A) /\
    Lookup s' "match1" = Some "B".
Proof.
  split; [reflexivity|].
  apply (OnPubStartHandler_last_writer_wins (PubStartInfo.mk "match1" "B") match1_on_A).
  reflexivity.
Defined.

(** ** Publish-stop *)

(** C4: a publish-stop for a stream the directory does not hold, or held
    by another node than the one reporting, handled with the mutex free,
    completes and leaves the whole directory as it was. *)
Theorem OnPubStopHandler_stale_is_noop (info : PubStopInfo.t) (s : State) :
  mutex s = false ->
  (Lookup s info.(PubStopInfo.StreamName) = None \/
   exists owner, Lookup s info.(PubStopInfo.StreamName) = Some owner /\
                 owner <> info.(PubStopInfo.ServerID)) ->
  exists s',
    OnPubStopHandler (Some info) s = Some s' /\
    stream2ServerID s' = stream2ServerID s.
Proof.
  unfold Lookup. intros Hm Hstale.
  assert (Hne : stream2ServerID s !! info.(PubStopInfo.StreamName)
                <> Some info.(PubStopInfo.ServerID)).
  { destruct Hstale as [Hnone | [owner [Hsome Hne]]].
    - rewrite Hnone. discriminate.
    - rewrite Hsome. intros Heq. injection Heq as ->. apply Hne. reflexivity. }
  eexists. split; [apply OnPubStopHandler_run_stale; assumption | reflexivity].
Qed.

Lemma OnPubStopHandler_stale_is_noop_witness :
  exists s',
    OnPubStopHandler (Some (PubStopInfo.mk "match1" "B")) match1_on_A = Some s' /\
    stream2ServerID s' = stream2ServerID match1_on_A.
Proof.
  apply (OnPubStopHandler_stale_is_noop (PubStopInfo.mk "match1" "B") match1_on_A).
  - reflexivity.
  - right. exists "A". split; [reflexivity | discriminate].
Defined.

(** C1, at the input where the code departs from it: the directory maps
    [match1] to [A] and node [A] reports the stop of [match1].  The handler
    deletes the key [A], not the key [match1]: the entry is still there. *)
Theorem OnPubStopHandler_owner_stop_keeps_entry :
  Lookup match1_on_A "match1" = Some "A" /\
  exists s',
    OnPubStopHandler (Some (PubStopInfo.mk "match1" "A")) match1_on_A = Some s' /\
    stream2ServerID s' = delete "A" (stream2ServerID match1_on_A) /\
    Lookup s' "match1" = Some "A".
Proof.
  split; [reflexivity|]. eexists. split.
  - apply (OnPubStopHandler_run_match (PubStopInfo.mk "match1" "A") match1_on_A);
      reflexivity.
  - split; reflexivity.
Qed.

(** C3, at an input where the code departs from it: stream [1] is
    published on node [2]; then stream [x] is published on node [1] and
    stopped by node [1].  No request in between names stream [1], yet the
    stop deletes the key [1] and the lookup of stream [1] finds nothing. *)
Theorem Serve_foreign_stop_drops_owner :
  let requests :=
    [on_pub_start (Some (PubStartInfo.mk "x" "1"));
     on_pub_stop (Some (PubStopInfo.mk "x" "1"))] in
  exists s1 s2,
    OnPubStartHandler (Some (PubStartInfo.mk "1" "2")) main_State = Some s1 /\
    Lookup s1 "1" = Some "2" /\
    Serve config "RTMP" net_up requests s1 = Some s2 /\
    Lookup s2 "1" = None.
Proof.
  cbv zeta. eexists. eexists. split; [vm_compute; reflexivity|].
  split; [reflexivity|]. split; vm_compute; reflexivity.
Qed.

(** ** Subscribe-start and subscribe-stop *)

Section SubscribeClaims.

Variable cfg : Config.
Variable ProtocolRTMP : string.
Variable PostJson_err : string -> APICtrlStartPullReq.t -> bool.

Local Abbreviation handler := (OnSubStartHandler cfg ProtocolRTMP PostJson_err).

(** C5: whenever a completed subscribe-start has posted a command, the
    stream has an owner in the directory, the owner is in the registry,
    and the command carries the owner's rtmp address, the application and
    stream names of the event, and [pullSecretParam] as its parameter
    string. *)
Theorem OnSubStartHandler_command_fields
    (r : option SubStartInfo.t) (s s' : State) (evs : list Effect)
    (url : string) (b : APICtrlStartPullReq.t) :
  handler r s = Some s' ->
  trace s' = (trace s ++ evs)%list ->
  In (url, b) (dispatches evs) ->
  exists info owner pubServer,
    r = Some info /\
    Lookup s info.(SubStartInfo.StreamName) = Some owner /\
    serverID2Server cfg !! owner = Some pubServer /\
    b.(APICtrlStartPullReq.Addr) = rtmpAddr pubServer /\
    b.(APICtrlStartPullReq.AppName) = info.(SubStartInfo.AppName) /\
    b.(APICtrlStartPullReq.StreamName) = info.(SubStartInfo.StreamName) /\
    b.(APICtrlStartPullReq.URLParam) = pullSecretParam cfg.
Proof.
  intros H Htr Hin.
  destruct (OnSubStartHandler_inv _ _ _ _ _ _ H) as [evs0 [-> Hcase]].
  cbn in Htr. apply app_inv_head in Htr. subst evs0.
  destruct Hcase as [Hnone | (info & reqServer & owner & pubServer & -> & _ & _ & _
                              & _ & Hown & Hpub & ->)].
  - rewrite Hnone in Hin. destruct Hin.
  - rewrite dispatches_cascade_effects in Hin.
    destruct Hin as [Heq | []]. injection Heq as <- <-.
    exists info, owner, pubServer. repeat split; assumption.
Qed.

(** C7: a subscribe-start whose parameter string contains
    [pullSecretParam] completes, whatever the directory, the mutex and
    the other fields of the event, and posts nothing. *)
Theorem OnSubStartHandler_marker_no_dispatch (info : SubStartInfo.t) (s : State) :
  (exists before after,
     info.(SubStartInfo.URLParam) = before +:+ pullSecretParam cfg +:+ after) ->
  exists s' evs,
    handler (Some info) s = Some s' /\
    trace s' = (trace s ++ evs)%list /\
    dispatches evs = [].
Proof.
  intros Hc. apply strings_Contains_spec in Hc.
  eexists. eexists. split; [apply OnSubStartHandler_run_marker; exact Hc|].
  split; reflexivity.
Qed.

(** C8: a subscribe-start that reports a local input session, or whose
    stream has no owner in the directory, handled with the mutex free,
    completes and posts nothing. *)
Theorem OnSubStartHandler_local_or_unknown_no_dispatch
    (info : SubStartInfo.t) (s : State) :
  mutex s = false ->
  (info.(SubStartInfo.HasInSession) = true \/
   Lookup s info.(SubStartInfo.StreamName) = None) ->
  exists s' evs,
    handler (Some info) s = Some s' /\
    trace s' = (trace s ++ evs)%list /\
    dispatches evs = [].
Proof.
  unfold Lookup. intros Hm Hguard.
  destruct (OnSubStartHandler_total cfg ProtocolRTMP PostJson_err (Some info) s Hm)
    as [s' H].
  destruct (OnSubStartHandler_inv _ _ _ _ _ _ H) as [evs [-> Hcase]].
  eexists. exists evs. split; [exact H|]. split; [reflexivity|].
  destruct Hcase as [Hnone | (info' & _ & owner & _ & Hr & _ & Hi & _ & _ & Hown & _)];
    [exact Hnone|].
  injection Hr as <-. destruct Hguard as [Hin | Hnone]; congruence.
Qed.

(** C9: handled with the mutex free, a subscribe-start completes and
    leaves the directory as it was; a subscribe-stop completes in any
    state and leaves the directory as it was. *)
Theorem OnSubHandlers_keep_directory (s : State) :
  mutex s = false ->
  (forall r : option SubStartInfo.t,
     exists s', handler r s = Some s' /\ stream2ServerID s' = stream2ServerID s) /\
  (forall r : option SubStopInfo.t,
     exists s', OnSubStopHandler r s = Some s' /\ stream2ServerID s' = stream2ServerID s).
Proof.
  intros Hm. split; intros r.
  - destruct (OnSubStartHandler_total cfg ProtocolRTMP PostJson_err r s Hm) as [s' H].
    exists s'. split; [exact H|].
    destruct (OnSubStartHandler_inv _ _ _ _ _ _ H) as [evs [-> _]]. reflexivity.
  - unfold OnSubStopHandler. go_unfold. destruct r; cbn; eexists; split; reflexivity.
Qed.

(** C10: when the node that asks is itself the owner of the stream, the
    parameter string lacks [pullSecretParam], no local input session is
    reported and the node is in the registry, the handler posts one
    command, to that node's api address, whose source is that same
    node's rtmp address. *)
Theorem OnSubStartHandler_pulls_from_itself
    (info : SubStartInfo.t) (s : State) (node : Server) :
  mutex s = false ->
  Lookup s info.(SubStartInfo.StreamName) = Some info.(SubStartInfo.ServerID) ->
  ~ (exists before after,
       info.(SubStartInfo.URLParam) = before +:+ pullSecretParam cfg +:+ after) ->
  info.(SubStartInfo.HasInSession) = false ->
  serverID2Server cfg !! info.(SubStartInfo.ServerID) = Some node ->
  exists s' evs b,
    handler (Some info) s = Some s' /\
    trace s' = (trace s ++ evs)%list /\
    dispatches evs = [("http://" +:+ apiAddr node +:+ "/api/ctrl/start_pull", b)] /\
    b.(APICtrlStartPullReq.Addr) = rtmpAddr node.
Proof.
  unfold Lookup. intros Hm Hown Hc Hi Hreg.
  rewrite <- strings_Contains_spec in Hc. apply not_true_is_false in Hc.
  eexists. eexists. eexists. split.
  - apply (OnSubStartHandler_run_dispatch cfg ProtocolRTMP PostJson_err info s node
             info.(SubStartInfo.ServerID) node); assumption.
  - split; [reflexivity|]. split; [apply dispatches_cascade_effects | reflexivity].
Qed.

(** C2, as the code has it: handled with the mutex free, a subscribe-start
    completes and leaves the mutex free; when it posts a command, the
    post is made between [mutex.Lock] and the deferred [mutex.Unlock],
    that is while the mutex is held. *)
Theorem OnSubStartHandler_posts_under_lock (r : option SubStartInfo.t) (s : State) :
  mutex s = false ->
  exists s' evs,
    handler r s = Some s' /\
    trace s' = (trace s ++ evs)%list /\
    mutex s' = false /\
    (dispatches evs <> [] ->
     posts_inside_lock false evs = true /\ posts_outside_lock false evs = false).
Proof.
  intros Hm.
  destruct (OnSubStartHandler_total cfg ProtocolRTMP PostJson_err r s Hm) as [s' H].
  destruct (OnSubStartHandler_inv _ _ _ _ _ _ H) as [evs [-> Hcase]].
  eexists. exists evs. split; [exact H|]. split; [reflexivity|].
  split; [exact Hm|]. intros Hposts.
  destruct Hcase as [Hnone | (info & reqServer & owner & pubServer & _ & _ & _ & _
                              & _ & _ & _ & ->)]; [contradiction|].
  apply cascade_effects_inside_lock.
Qed.

End SubscribeClaims.

(** The claims at the configuration of the source, on the cluster of two
    nodes with stream [s] published on node [1]. *)

Lemma OnSubStartHandler_command_fields_witness :
  exists info owner pubServer,
    Some sub_s_at_2 = Some info /\
    Lookup s_on_1 info.(SubStartInfo.StreamName) = Some owner /\
    serverID2Server config !! owner = Some pubServer /\
    pull_s_from_1.(APICtrlStartPullReq.Addr) = rtmpAddr pubServer /\
    pull_s_from_1.(APICtrlStartPullReq.AppName) = info.(SubStartInfo.AppName) /\
    pull_s_from_1.(APICtrlStartPullReq.StreamName) = info.(SubStartInfo.StreamName) /\
    pull_s_from_1.(APICtrlStartPullReq.URLParam) = pullSecretParam config.
Proof.
  apply (OnSubStartHandler_command_fields config "RTMP" net_up
           (Some sub_s_at_2) s_on_1 s_on_1_after_sub sub_s_at_2_effects
           "http://127.0.0.1:8283/api/ctrl/start_pull" pull_s_from_1).
  - vm_compute. reflexivity.
  - reflexivity.
  - simpl. left. reflexivity.
Defined.

Lemma OnSubStartHandler_marker_no_dispatch_witness :
  exists s' evs,
    OnSubStartHandler config "RTMP" net_up (Some sub_s_cascaded) s_on_1 = Some s' /\
    trace s' = (trace s_on_1 ++ evs)%list /\
    dispatches evs = [].
Proof.
  apply (OnSubStartHandler_marker_no_dispatch config "RTMP" net_up sub_s_cascaded s_on_1).
  exists "", "". reflexivity.
Defined.

Lemma OnSubStartHandler_local_or_unknown_no_dispatch_witness :
  (exists s' evs,
     OnSubStartHandler config "RTMP" net_up (Some sub_s_local) s_on_1 = Some s' /\
     trace s' = (trace s_on_1 ++ evs)%list /\
     dispatches evs = []) /\
  (exists s' evs,
     OnSubStartHandler config "RTMP" net_up (Some sub_s_at_2) main_State = Some s' /\
     trace s' = (trace main_State ++ evs)%list /\
     dispatches evs = []).
Proof.
  split.
  - apply (OnSubStartHandler_local_or_unknown_no_dispatch config "RTMP" net_up
             sub_s_local s_on_1); [reflexivity | left; reflexivity].
  - apply (OnSubStartHandler_local_or_unknown_no_dispatch config "RTMP" net_up
             sub_s_at_2 main_State); [reflexivity | right; reflexivity].
Defined.

Lemma OnSubHandlers_keep_directory_witness :
  (forall r : option SubStartInfo.t,
     exists s', OnSubStartHandler config "RTMP" net_up r s_on_1 = Some s' /\
                stream2ServerID s' = stream2ServerID s_on_1) /\
  (forall r : option SubStopInfo.t,
     exists s', OnSubStopHandler r s_on_1 = Some s' /\
                stream2ServerID s' = stream2ServerID s_on_1).
Proof.
  apply (OnSubHandlers_keep_directory config "RTMP" net_up s_on_1). reflexivity.
Defined.

Lemma OnSubStartHandler_pulls_from_itself_witness :
  exists s' evs b,
    OnSubStartHandler config "RTMP" net_up (Some sub_s_at_1) s_on_1 = Some s' /\
    trace s' = (trace s_on_1 ++ evs)%list /\
    dispatches evs = [("http://127.0.0.1:8083/api/ctrl/start_pull", b)] /\
    b.(APICtrlStartPullReq.Addr) = "127.0.0.1:19350".
Proof.
  apply (OnSubStartHandler_pulls_from_itself config "RTMP" net_up sub_s_at_1 s_on_1
           {| rtmpAddr := "127.0.0.1:19350"; apiAddr := "127.0.0.1:8083" |}).
  - reflexivity.
  - reflexivity.
  - intros Hc. apply strings_Contains_spec in Hc. vm_compute in Hc. discriminate Hc.
  - reflexivity.
  - reflexivity.
Defined.

Lemma OnSubStartHandler_posts_under_lock_witness :
  exists s' evs,
    OnSubStartHandler config "RTMP" net_up (Some sub_s_at_2) s_on_1 = Some s' /\
    trace s' = (trace s_on_1 ++ evs)%list /\
    mutex s' = false /\
    (dispatches evs <> [] ->
     posts_inside_lock false evs = true /\ posts_outside_lock false evs = false).
Proof.
  apply (OnSubStartHandler_posts_under_lock config "RTMP" net_up (Some sub_s_at_2) s_on_1).
  reflexivity.
Defined.

(** C2, as the claim words it, fails: for [sub_s_at_2] in [s_on_1] the
    handler posts the command after [mutex.Lock] and before the deferred
    [mutex.Unlock]. *)
Lemma OnSubStartHandler_posts_outside_lock_counterexample :
  ~ (forall (cfg : Config) (ProtocolRTMP : string)
            (PostJson_err : string -> APICtrlStartPullReq.t -> bool)
            (r : option SubStartInfo.t) (s s' : State) (evs : list Effect),
       mutex s = false ->
       OnSubStartHandler cfg ProtocolRTMP PostJson_err r s = Some s' ->
       trace s' = (trace s ++ evs)%list ->
       posts_outside_lock false evs = true).
Proof.
  intros Hclaim.
  assert (Hrun : OnSubStartHandler config "RTMP" net_up (Some sub_s_at_2) s_on_1
                 = Some s_on_1_after_sub) by (vm_compute; reflexivity).
  specialize (Hclaim config "RTMP" net_up (Some sub_s_at_2) s_on_1 s_on_1_after_sub
                sub_s_at_2_effects eq_refl Hrun eq_refl).
  discriminate Hclaim.
Qed.

(** * Further properties of the handlers and of the server *)

Ltac run_handler Hm :=
  go_unfold; cbn; rewrite ?Hm; cbn;
  repeat match goal with
  | |- context [match ?m !! ?k with _ => _ end] => destruct (m !! k) eqn:?; cbn
  | |- context [if ?b then _ else _] => destruct b eqn:?; cbn
  end.

Lemma replay_mutex_app (held : bool) (tr1 tr2 : list Effect) :
  replay_mutex held (tr1 ++ tr2)%list =
  match replay_mutex held tr1 with
  | Some held' => replay_mutex held' tr2
  | None => None
  end.
Proof.
  revert held. induction tr1 as [|e tr1 IH]; intros held; simpl; [reflexivity|].
  destruct e, held; simpl; rewrite ?IH; reflexivity.
Qed.

Lemma strings_lacks_Contains (s substr : string) :
  ~ (exists before after, s = before +:+ substr +:+ after) ->
  strings_Contains s substr = false.
Proof. rewrite <- strings_Contains_spec. apply not_true_is_false. Qed.

Lemma OnPubStartHandler_inv (info : PubStartInfo.t) (s s' : State) :
  OnPubStartHandler (Some info) s = Some s' ->
  stream2ServerID s' =
    <[info.(PubStartInfo.StreamName) := info.(PubStartInfo.ServerID)]> (stream2ServerID s).
Proof.
  intros H. destruct (mutex s) eqn:Hm.
  - unfold OnPubStartHandler in H. go_unfold. cbn in H. rewrite Hm in H. discriminate H.
  - rewrite (OnPubStartHandler_run info s Hm) in H. injection H as <-. reflexivity.
Qed.

Section ServerRuns.

Variable cfg : Config.
Variable ProtocolRTMP : string.
Variable PostJson_err : string -> APICtrlStartPullReq.t -> bool.

Local Abbreviation mux := (ServeMux cfg ProtocolRTMP PostJson_err).
Local Abbreviation serve := (Serve cfg ProtocolRTMP PostJson_err).

(** One request served with the mutex free: the call completes, frees the
    mutex, locks and unlocks in turn, posts at most once and only for a
    subscribe-start, and writes to the directory only for a publish. *)
Lemma ServeMux_step (r : Request) (s : State) :
  mutex s = false ->
  exists s' evs,
    mux r s = Some s' /\
    mutex s' = false /\
    trace s' = (trace s ++ evs)%list /\
    replay_mutex false evs = Some false /\
    length (dispatches evs) <= (if subscribes r then 1 else 0) /\
    (publishes r = false -> stream2ServerID s' = stream2ServerID s).
Proof.
  intros Hm.
  destruct r as [[info|]|[info|]|[info|]|[info|]|[info|]];
    unfold ServeMux, OnPubStartHandler, OnPubStopHandler, OnSubStartHandler,
      OnSubStopHandler, OnUpdateHandler;
    run_handler Hm; trace_norm;
    (eexists; eexists; split; [reflexivity|]; cbn;
     repeat split; try reflexivity; try assumption; try (cbn; lia); try discriminate).
Qed.

Lemma Serve_run (rs : list Request) (s : State) :
  mutex s = false ->
  exists s' evs,
    serve rs s = Some s' /\
    mutex s' = false /\
    trace s' = (trace s ++ evs)%list /\
    replay_mutex false evs = Some false /\
    length (dispatches evs) <= length (List.filter subscribes rs).
Proof.
  revert s. induction rs as [|r rs IH]; intros s Hm.
  - exists s, []. simpl. rewrite app_nil_r. repeat split; [exact Hm | lia].
  - destruct (ServeMux_step r s Hm) as (s1 & evs1 & H1 & Hm1 & Ht1 & Hr1 & Hd1 & _).
    destruct (IH s1 Hm1) as (s2 & evs2 & H2 & Hm2 & Ht2 & Hr2 & Hd2).
    exists s2, (evs1 ++ evs2)%list. simpl. rewrite H1.
    split; [exact H2|]. split; [exact Hm2|].
    split; [rewrite Ht2, Ht1, app_assoc; reflexivity|].
    split; [rewrite replay_mutex_app, Hr1; exact Hr2|].
    rewrite dispatches_app, length_app.
    destruct (subscribes r); simpl; lia.
Qed.


(** X2: the server posts at most one command for each well-formed
    subscribe-start it handles and none for any other request: no post is
    repeated, and publish, subscribe-stop and update requests post
    nothing. *)
Theorem Serve_posts_at_most_once_per_subscribe (rs : list Request) (s : State) :
  mutex s = false ->
  exists s' evs,
    serve rs s = Some s' /\
    trace s' = (trace s ++ evs)%list /\
    length (dispatches evs) <= length (List.filter subscribes rs).
Proof.
  intros Hm. destruct (Serve_run rs s Hm) as (s' & evs & H & _ & Ht & _ & Hd).
  exists s', evs. repeat split; assumption.
Qed.

(** X3: a request whose body does not unmarshal is dropped on every
    route: the handler logs one error and returns, without taking the
    mutex (so also while it is held), writing to the directory or posting. *)
Theorem ServeMux_malformed_dropped (r : Request) (s : State) :
  malformed r = true ->
  mux r s =
  Some {| stream2ServerID := stream2ServerID s;
          mutex := mutex s;
          trace := (trace s ++ [EvLog ERROR "err"])%list |}.
Proof.
  destruct r as [[info|]|[info|]|[info|]|[info|]|[info|]]; simpl; intros Hmal;
    try discriminate Hmal; reflexivity.
Qed.

(** X4: only well-formed publish-start and publish-stop requests write to
    the directory; every other request, handled with the mutex free,
    completes and leaves the whole directory as it was. *)
Theorem ServeMux_only_publish_writes (r : Request) (s : State) :
  mutex s = false ->
  publishes r = false ->
  exists s', mux r s = Some s' /\ stream2ServerID s' = stream2ServerID s.
Proof.
  intros Hm Hp. destruct (ServeMux_step r s Hm) as (s' & evs & H & _ & _ & _ & _ & Hdir).
  exists s'. split; [exact H | exact (Hdir Hp)].
Qed.

(** A served list of requests changes the owner of a stream only through
    a publish-start that names the stream and the new owner. *)
Lemma Serve_provenance_inv (rs : list Request) (s s' : State) (k n : string) :
  serve rs s = Some s' ->
  Lookup s' k = Some n ->
  Lookup s k = Some n \/ In (on_pub_start (Some (PubStartInfo.mk k n))) rs.
Proof.
  unfold Lookup. revert s. induction rs as [|r rs IH]; intros s H Hk; simpl in H.
  - injection H as <-. left. exact Hk.
  - destruct (mux r s) as [s1|] eqn:H1; [|discriminate H].
    destruct (IH s1 H Hk) as [Hk1 | Hin]; [|right; right; exact Hin].
    destruct r as [[info|]|[info|]|body|[info|]|[info|]]; simpl in H1;
      try (unfold OnPubStartHandler, OnPubStopHandler, OnSubStopHandler,
             OnUpdateHandler in H1;
           go_unfold; cbn in H1; injection H1 as <-; left; exact Hk1).
    + rewrite (OnPubStartHandler_inv info s s1 H1) in Hk1.
      destruct info as [name node]. cbn in Hk1.
      destruct (decide (name = k)) as [->|Hne].
      * rewrite lookup_insert_eq in Hk1. injection Hk1 as ->. right. left. reflexivity.
      * rewrite lookup_insert_ne in Hk1 by exact Hne. left. exact Hk1.
    + destruct (OnPubStopHandler_inv info s s1 H1) as [Hsame | [_ Hdel]].
      * rewrite Hsame in Hk1. left. exact Hk1.
      * rewrite Hdel in Hk1. apply lookup_delete_Some in Hk1. left. apply Hk1.
    + destruct (OnSubStartHandler_inv _ _ _ _ _ _ H1) as [evs [-> _]]. left. exact Hk1.
Qed.

(** X5: every owner the directory records after a list of requests was
    either recorded before for the same stream, or reported by a
    publish-start of the list for that stream: no other request creates or
    re-assigns an entry. *)
Theorem Serve_owner_provenance (rs : list Request) (s : State) :
  mutex s = false ->
  exists s',
    serve rs s = Some s' /\
    forall k n : string,
      Lookup s' k = Some n ->
      Lookup s k = Some n \/ In (on_pub_start (Some (PubStartInfo.mk k n))) rs.
Proof.
  intros Hm. destruct (Serve_run rs s Hm) as (s' & _ & H & _).
  exists s'. split; [exact H|]. intros k n. apply Serve_provenance_inv. exact H.
Qed.

(** X6: the owner recorded for a stream survives every list of requests
    that holds no publish-start for the stream and no publish-stop
    reported by a node whose id is the stream's name. *)
Theorem Serve_keeps_owner (key : string) (rs : list Request) (s : State) :
  mutex s = false ->
  Forall (spares key) rs ->
  exists s', serve rs s = Some s' /\ Lookup s' key = Lookup s key.
Proof.
  intros Hm Hall. destruct (Serve_run rs s Hm) as (s' & _ & H & _).
  exists s'. split; [exact H|]. eapply Serve_Lookup_frame; eassumption.
Qed.

End ServerRuns.

Section SubscribeDecision.

Variable cfg : Config.
Variable ProtocolRTMP : string.
Variable PostJson_err : string -> APICtrlStartPullReq.t -> bool.

Local Abbreviation handler := (OnSubStartHandler cfg ProtocolRTMP PostJson_err).

(** X7: the decision of the subscribe handler, in full.  Handled with the
    mutex free, a subscribe-start posts a command exactly when its
    parameter string lacks [pullSecretParam], it reports no local input
    session, the asking node is in the registry, the stream has an owner
    and the owner is in the registry; it then posts that one command. *)
Theorem OnSubStartHandler_dispatches_iff (info : SubStartInfo.t) (s : State) :
  mutex s = false ->
  exists s' evs,
    handler (Some info) s = Some s' /\
    trace s' = (trace s ++ evs)%list /\
    length (dispatches evs) <= 1 /\
    (dispatches evs <> [] <->
     ~ (exists before after,
          info.(SubStartInfo.URLParam) = before +:+ pullSecretParam cfg +:+ after) /\
     info.(SubStartInfo.HasInSession) = false /\
     is_Some (serverID2Server cfg !! info.(SubStartInfo.ServerID)) /\
     exists owner,
       Lookup s info.(SubStartInfo.StreamName) = Some owner /\
       is_Some (serverID2Server cfg !! owner)).
Proof.
  unfold Lookup. intros Hm.
  destruct (OnSubStartHandler_total cfg ProtocolRTMP PostJson_err (Some info) s Hm)
    as [s' H].
  destruct (OnSubStartHandler_inv _ _ _ _ _ _ H) as [evs [Hs' Hcase]].
  exists s', evs. split; [exact H|]. split; [rewrite Hs'; reflexivity|].
  split.
  { destruct Hcase as [-> | (i0 & r0 & o0 & p0 & _ & _ & _ & _ & _ & _ & _ & ->)];
      [simpl; lia | rewrite dispatches_cascade_effects; simpl; lia]. }
  split.
  - intros Hposts.
    destruct Hcase as [Hnone | (info' & reqServer & owner & pubServer & Hr & Hc & Hi
                                & _ & Hreq & Hown & Hpub & _)]; [contradiction|].
    injection Hr as <-. split.
    + rewrite <- strings_Contains_spec, Hc. discriminate.
    + split; [exact Hi|]. split; [eauto|]. exists owner. split; [exact Hown | eauto].
  - intros (Hc & Hi & [reqServer Hreq] & owner & Hown & [pubServer Hpub]).
    apply strings_lacks_Contains in Hc.
    rewrite (OnSubStartHandler_run_dispatch cfg ProtocolRTMP PostJson_err info s
               reqServer owner pubServer Hc Hi Hm Hreq Hown Hpub) in H.
    injection H as <-. injection Hs' as _ Hevs. apply app_inv_head in Hevs.
    rewrite <- Hevs, dispatches_cascade_effects. discriminate.
Qed.

(** X8: whenever a completed subscribe-start has posted a command, the
    asking node is in the registry, the command went to the url
    [http://<api address of the asking node>/api/ctrl/start_pull] and its
    protocol is [ProtocolRTMP]. *)
Theorem OnSubStartHandler_command_target
    (r : option SubStartInfo.t) (s s' : State) (evs : list Effect)
    (url : string) (b : APICtrlStartPullReq.t) :
  handler r s = Some s' ->
  trace s' = (trace s ++ evs)%list ->
  In (url, b) (dispatches evs) ->
  exists info reqServer,
    r = Some info /\
    serverID2Server cfg !! info.(SubStartInfo.ServerID) = Some reqServer /\
    url = "http://" +:+ apiAddr reqServer +:+ "/api/ctrl/start_pull" /\
    b.(APICtrlStartPullReq.Protocol) = ProtocolRTMP.
Proof.
  intros H Htr Hin.
  destruct (OnSubStartHandler_inv _ _ _ _ _ _ H) as [evs0 [-> Hcase]].
  cbn in Htr. apply app_inv_head in Htr. subst evs0.
  destruct Hcase as [Hnone | (info & reqServer & owner & pubServer & -> & _ & _ & _
                              & Hreq & _ & _ & ->)].
  - rewrite Hnone in Hin. destruct Hin.
  - rewrite dispatches_cascade_effects in Hin.
    destruct Hin as [Heq | []]. injection Heq as <- <-.
    exists info, reqServer. repeat split. exact Hreq.
Qed.

(** X9: the cascade does not feed itself.  The parameter string of any
    command the handler has posted, once it comes back inside the
    parameter string of a subscribe-start, makes the handler return
    without posting, in whatever state that subscribe-start arrives. *)
Theorem OnSubStartHandler_command_not_cascaded
    (r : option SubStartInfo.t) (s s' : State) (evs : list Effect)
    (url : string) (b : APICtrlStartPullReq.t)
    (echo : SubStartInfo.t) (s2 : State) :
  handler r s = Some s' ->
  trace s' = (trace s ++ evs)%list ->
  In (url, b) (dispatches evs) ->
  (exists before after,
     echo.(SubStartInfo.URLParam) = before +:+ b.(APICtrlStartPullReq.URLParam) +:+ after) ->
  exists s2' evs2,
    handler (Some echo) s2 = Some s2' /\
    trace s2' = (trace s2 ++ evs2)%list /\
    dispatches evs2 = [].
Proof.
  intros H Htr Hin Hecho.
  destruct (OnSubStartHandler_inv _ _ _ _ _ _ H) as [evs0 [-> Hcase]].
  cbn in Htr. apply app_inv_head in Htr. subst evs0.
  destruct Hcase as [Hnone | (info & reqServer & owner & pubServer & _ & _ & _ & _
                              & _ & _ & _ & ->)].
  - rewrite Hnone in Hin. destruct Hin.
  - rewrite dispatches_cascade_effects in Hin.
    destruct Hin as [Heq | []]. injection Heq as Hurl Hb. subst b. cbn in Hecho.
    apply strings_Contains_spec in Hecho.
    eexists. eexists.
    split; [apply OnSubStartHandler_run_marker; exact Hecho|]. split; reflexivity.
Qed.

(** X10: a node missing from the registry stops the cascade with an error
    line.  For an organic subscribe-start without local input session,
    handled with the mutex free: if the asking node is not in the
    registry, or the stream's owner is not, the handler completes, logs at
    ERROR level, posts nothing and leaves the directory as it was. *)
Theorem OnSubStartHandler_unknown_node_no_dispatch (info : SubStartInfo.t) (s : State) :
  mutex s = false ->
  ~ (exists before after,
       info.(SubStartInfo.URLParam) = before +:+ pullSecretParam cfg +:+ after) ->
  info.(SubStartInfo.HasInSession) = false ->
  (serverID2Server cfg !! info.(SubStartInfo.ServerID) = None \/
   exists owner, Lookup s info.(SubStartInfo.StreamName) = Some owner /\
                 serverID2Server cfg !! owner = None) ->
  exists s' evs,
    handler (Some info) s = Some s' /\
    trace s' = (trace s ++ evs)%list /\
    stream2ServerID s' = stream2ServerID s /\
    dispatches evs = [] /\
    exists format, In (EvLog ERROR format) evs.
Proof.
  unfold Lookup. intros Hm Hc Hi Hreg. apply strings_lacks_Contains in Hc.
  unfold OnSubStartHandler. go_unfold. cbn. rewrite Hc. cbn. rewrite Hi. cbn.
  rewrite Hm. cbn.
  destruct (serverID2Server cfg !! info.(SubStartInfo.ServerID)) as [reqServer|] eqn:Hreq;
    cbn.
  - destruct Hreg as [Hnone | (owner & Hown & Hpub)]; [discriminate Hnone|].
    rewrite Hown. cbn. rewrite Hpub. cbn. trace_norm.
    eexists. eexists. split; [reflexivity|]. cbn. split; [reflexivity|].
    split; [reflexivity|]. split; [reflexivity|].
    eexists. right. right. left. reflexivity.
  - trace_norm.
    eexists. eexists. split; [reflexivity|]. cbn. split; [reflexivity|].
    split; [reflexivity|]. split; [reflexivity|].
    eexists. right. right. left. reflexivity.
Qed.

End SubscribeDecision.

(** X11: the outcome of the post is logged and otherwise ignored.  On two
    networks that differ in which posts fail, a subscribe-start handled
    from the same state with the mutex free completes on both, with the
    same directory, the mutex free and the same commands posted. *)
Theorem OnSubStartHandler_post_outcome_ignored
    (cfg : Config) (ProtocolRTMP : string)
    (net1 net2 : string -> APICtrlStartPullReq.t -> bool)
    (r : option SubStartInfo.t) (s : State) :
  mutex s = false ->
  exists s1 s2,
    OnSubStartHandler cfg ProtocolRTMP net1 r s = Some s1 /\
    OnSubStartHandler cfg ProtocolRTMP net2 r s = Some s2 /\
    stream2ServerID s1 = stream2ServerID s2 /\
    mutex s1 = mutex s2 /\
    dispatches (trace s1) = dispatches (trace s2).
Proof.
  intros Hm.
  destruct (OnSubStartHandler_total cfg ProtocolRTMP net1 r s Hm) as [s1 H1].
  destruct (OnSubStartHandler_total cfg ProtocolRTMP net2 r s Hm) as [s2 H2].
  exists s1, s2. split; [exact H1|]. split; [exact H2|].
  destruct (OnSubStartHandler_inv _ _ _ _ _ _ H1) as [evs1 [Hs1 Hcase1]].
  destruct (OnSubStartHandler_inv _ _ _ _ _ _ H2) as [evs2 [Hs2 Hcase2]].
  assert (Hposts : dispatches evs1 = dispatches evs2).
  { destruct Hcase2 as [Hnone2 | (info & reqServer & owner & pubServer & -> & Hc & Hi
                                  & _ & Hreq & Hown & Hpub & ->)].
    - destruct Hcase1 as [Hnone1 | (info & reqServer & owner & pubServer & -> & Hc & Hi
                                    & _ & Hreq & Hown & Hpub & _)]; [congruence|].
      rewrite (OnSubStartHandler_run_dispatch cfg ProtocolRTMP net2 info s
                 reqServer owner pubServer Hc Hi Hm Hreq Hown Hpub) in H2.
      rewrite Hs2 in H2. injection H2 as _ Hevs. apply app_inv_head in Hevs.
      rewrite <- Hevs, dispatches_cascade_effects in Hnone2. discriminate Hnone2.
    - rewrite (OnSubStartHandler_run_dispatch cfg ProtocolRTMP net1 info s
                 reqServer owner pubServer Hc Hi Hm Hreq Hown Hpub) in H1.
      rewrite Hs1 in H1. injection H1 as _ Hevs. apply app_inv_head in Hevs.
      rewrite <- Hevs, !dispatches_cascade_effects. reflexivity. }
  rewrite Hs1, Hs2. cbn. rewrite !dispatches_app, Hposts. repeat split.
Qed.

(** ** Publish requests, one after another *)

(** X12: a publish-stop never adds an entry and never changes an owner:
    whatever its body, handled with the mutex free it completes and every
    entry of the directory it leaves was there before, with the same
    owner. *)
Theorem OnPubStopHandler_never_adds (r : option PubStopInfo.t) (s : State) :
  mutex s = false ->
  exists s', OnPubStopHandler r s = Some s' /\ stream2ServerID s' ⊆ stream2ServerID s.
Proof.
  intros Hm. destruct r as [info|].
  - destruct (decide (stream2ServerID s !! info.(PubStopInfo.StreamName)
                      = Some info.(PubStopInfo.ServerID))) as [Hown|Hne].
    + eexists. split; [apply OnPubStopHandler_run_match; assumption|].
      cbn. apply delete_subseteq.
    + eexists. split; [apply OnPubStopHandler_run_stale; assumption|]. reflexivity.
  - eexists. split; [reflexivity|]. reflexivity.
Qed.

(** X13: a publish-stop reported by the stream's current owner, handled
    with the mutex free, completes and deletes from the directory the key
    equal to the reporting node's id.  Every stream with another name keeps
    its owner, the stopped stream included. *)
Theorem OnPubStopHandler_owner_stop_deletes_node_key (info : PubStopInfo.t) (s : State) :
  mutex s = false ->
  Lookup s info.(PubStopInfo.StreamName) = Some info.(PubStopInfo.ServerID) ->
  exists s',
    OnPubStopHandler (Some info) s = Some s' /\
    Lookup s' info.(PubStopInfo.ServerID) = None /\
    forall key, key <> info.(PubStopInfo.ServerID) -> Lookup s' key = Lookup s key.
Proof.
  unfold Lookup. intros Hm Hown.
  eexists. split; [apply OnPubStopHandler_run_match; assumption|]. cbn. split.
  - apply lookup_delete_eq.
  - intros key Hne. apply lookup_delete_ne. congruence.
Qed.

(** X14: a later publish-start for the same stream supersedes an earlier
    one entirely: after both, the directory is the one the later
    publish-start alone would have left. *)
Theorem OnPubStartHandler_republish_supersedes
    (first second : PubStartInfo.t) (s : State) :
  mutex s = false ->
  first.(PubStartInfo.StreamName) = second.(PubStartInfo.StreamName) ->
  exists s1 s2 s2',
    OnPubStartHandler (Some first) s = Some s1 /\
    OnPubStartHandler (Some second) s1 = Some s2 /\
    OnPubStartHandler (Some second) s = Some s2' /\
    stream2ServerID s2 = stream2ServerID s2'.
Proof.
  intros Hm Hname. eexists. eexists. eexists.
  split; [apply OnPubStartHandler_run; exact Hm|].
  split; [apply OnPubStartHandler_run; reflexivity|].
  split; [apply OnPubStartHandler_run; exact Hm|].
  cbn. rewrite Hname. apply insert_insert_eq.
Qed.

(** X15: the stop of an old session cannot evict a newer publisher.  After
    a publish-start by one node, a publish-start for the same stream by
    another node and then the publish-stop of the first node, the stream is
    owned by the second node and the directory is the one the second
    publish-start left. *)
Theorem OnPubStopHandler_late_stop_keeps_new_owner
    (name old new : string) (s : State) :
  mutex s = false ->
  old <> new ->
  exists s1 s2 s3,
    OnPubStartHandler (Some (PubStartInfo.mk name old)) s = Some s1 /\
    OnPubStartHandler (Some (PubStartInfo.mk name new)) s1 = Some s2 /\
    OnPubStopHandler (Some (PubStopInfo.mk name old)) s2 = Some s3 /\
    stream2ServerID s3 = stream2ServerID s2 /\
    Lookup s3 name = Some new.
Proof.
  intros Hm Hne. eexists. eexists. eexists.
  split; [apply OnPubStartHandler_run; exact Hm|].
  split; [apply OnPubStartHandler_run; reflexivity|].
  split.
  - apply OnPubStopHandler_run_stale; [reflexivity|]. cbn.
    rewrite lookup_insert_eq. congruence.
  - split; [reflexivity|]. unfold Lookup. cbn. apply lookup_insert_eq.
Qed.

(** X16: publish, then subscribe elsewhere.  After a publish-start, an
    organic subscribe-start for the same stream without local input
    session, from a node of the registry, posts exactly one command: to the
    api address of the asking node, with the rtmp address of the node that
    reported the publish as source, whoever owned the stream before. *)
Theorem OnSubStartHandler_after_publish
    (cfg : Config) (ProtocolRTMP : string)
    (PostJson_err : string -> APICtrlStartPullReq.t -> bool)
    (pub : PubStartInfo.t) (info : SubStartInfo.t) (s : State)
    (reqServer origin : Server) :
  mutex s = false ->
  info.(SubStartInfo.StreamName) = pub.(PubStartInfo.StreamName) ->
  ~ (exists before after,
       info.(SubStartInfo.URLParam) = before +:+ pullSecretParam cfg +:+ after) ->
  info.(SubStartInfo.HasInSession) = false ->
  serverID2Server cfg !! info.(SubStartInfo.ServerID) = Some reqServer ->
  serverID2Server cfg !! pub.(PubStartInfo.ServerID) = Some origin ->
  exists s1 s2 evs b,
    OnPubStartHandler (Some pub) s = Some s1 /\
    OnSubStartHandler cfg ProtocolRTMP PostJson_err (Some info) s1 = Some s2 /\
    trace s2 = (trace s1 ++ evs)%list /\
    dispatches evs = [("http://" +:+ apiAddr reqServer +:+ "/api/ctrl/start_pull", b)] /\
    b.(APICtrlStartPullReq.Addr) = rtmpAddr origin /\
    b.(APICtrlStartPullReq.StreamName) = pub.(PubStartInfo.StreamName).
Proof.
  intros Hm Hname Hc Hi Hreq Horigin. apply strings_lacks_Contains in Hc.
  eexists. eexists. eexists. eexists.
  split; [apply OnPubStartHandler_run; exact Hm|].
  split.
  - apply (OnSubStartHandler_run_dispatch cfg ProtocolRTMP PostJson_err info _
             reqServer pub.(PubStartInfo.ServerID) origin);
      try assumption; try reflexivity.
    cbn. rewrite Hname. apply lookup_insert_eq.
  - split; [reflexivity|]. split; [apply dispatches_cascade_effects|].
    split; [reflexivity | exact Hname].
Qed.

(** ** The further properties at the configuration of the source *)


Lemma Serve_posts_at_most_once_per_subscribe_witness :
  exists s' evs,
    Serve config "RTMP" net_up sample_requests main_State = Some s' /\
    trace s' = (trace main_State ++ evs)%list /\
    length (dispatches evs) <= length (List.filter subscribes sample_requests).
Proof.
  apply (Serve_posts_at_most_once_per_subscribe config "RTMP" net_up
           sample_requests main_State).
  reflexivity.
Defined.

Lemma ServeMux_malformed_dropped_witness :
  ServeMux config "RTMP" net_up (on_pub_stop None) s_on_1 =
  Some {| stream2ServerID := stream2ServerID s_on_1;
          mutex := mutex s_on_1;
          trace := (trace s_on_1 ++ [EvLog ERROR "err"])%list |}.
Proof.
  apply (ServeMux_malformed_dropped config "RTMP" net_up (on_pub_stop None) s_on_1).
  reflexivity.
Defined.

Lemma ServeMux_only_publish_writes_witness :
  exists s',
    ServeMux config "RTMP" net_up (on_update (Some (UpdateInfo.mk []))) s_on_1 = Some s' /\
    stream2ServerID s' = stream2ServerID s_on_1.
Proof.
  apply (ServeMux_only_publish_writes config "RTMP" net_up
           (on_update (Some (UpdateInfo.mk []))) s_on_1); reflexivity.
Defined.

Lemma Serve_owner_provenance_witness :
  exists s',
    Serve config "RTMP" net_up sample_requests main_State = Some s' /\
    forall k n : string,
      Lookup s' k = Some n ->
      Lookup main_State k = Some n \/
      In (on_pub_start (Some (PubStartInfo.mk k n))) sample_requests.
Proof.
  apply (Serve_owner_provenance config "RTMP" net_up sample_requests main_State).
  reflexivity.
Defined.

Lemma Serve_keeps_owner_witness :
  exists s',
    Serve config "RTMP" net_up
      [on_sub_start (Some sub_s_at_2); on_pub_stop (Some (PubStopInfo.mk "t" "2"));
       on_pub_start (Some (PubStartInfo.mk "t" "2"))] s_on_1 = Some s' /\
    Lookup s' "s" = Lookup s_on_1 "s".
Proof.
  apply (Serve_keeps_owner config "RTMP" net_up "s"
           [on_sub_start (Some sub_s_at_2); on_pub_stop (Some (PubStopInfo.mk "t" "2"));
            on_pub_start (Some (PubStartInfo.mk "t" "2"))] s_on_1).
  - reflexivity.
  - constructor; [exact I|].
    constructor; [simpl; discriminate|].
    constructor; [simpl; discriminate|].
    constructor.
Defined.

Lemma OnSubStartHandler_dispatches_iff_witness :
  exists s' evs,
    OnSubStartHandler config "RTMP" net_up (Some sub_s_at_2) s_on_1 = Some s' /\
    trace s' = (trace s_on_1 ++ evs)%list /\
    length (dispatches evs) <= 1 /\
    (dispatches evs <> [] <->
     ~ (exists before after,
          sub_s_at_2.(SubStartInfo.URLParam) = before +:+ pullSecretParam config +:+ after) /\
     sub_s_at_2.(SubStartInfo.HasInSession) = false /\
     is_Some (serverID2Server config !! sub_s_at_2.(SubStartInfo.ServerID)) /\
     exists owner,
       Lookup s_on_1 sub_s_at_2.(SubStartInfo.StreamName) = Some owner /\
       is_Some (serverID2Server config !! owner)).
Proof.
  apply (OnSubStartHandler_dispatches_iff config "RTMP" net_up sub_s_at_2 s_on_1).
  reflexivity.
Defined.

Lemma OnSubStartHandler_command_target_witness :
  exists info reqServer,
    Some sub_s_at_2 = Some info /\
    serverID2Server config !! info.(SubStartInfo.ServerID) = Some reqServer /\
    "http://127.0.0.1:8283/api/ctrl/start_pull" =
      "http://" +:+ apiAddr reqServer +:+ "/api/ctrl/start_pull" /\
    pull_s_from_1.(APICtrlStartPullReq.Protocol) = "RTMP".
Proof.
  apply (OnSubStartHandler_command_target config "RTMP" net_up
           (Some sub_s_at_2) s_on_1 s_on_1_after_sub sub_s_at_2_effects
           "http://127.0.0.1:8283/api/ctrl/start_pull" pull_s_from_1).
  - vm_compute. reflexivity.
  - reflexivity.
  - simpl. left. reflexivity.
Defined.

Lemma OnSubStartHandler_command_not_cascaded_witness :
  exists s2' evs2,
    OnSubStartHandler config "RTMP" net_up (Some sub_s_cascaded) s_on_1_after_sub
      = Some s2' /\
    trace s2' = (trace s_on_1_after_sub ++ evs2)%list /\
    dispatches evs2 = [].
Proof.
  apply (OnSubStartHandler_command_not_cascaded config "RTMP" net_up
           (Some sub_s_at_2) s_on_1 s_on_1_after_sub sub_s_at_2_effects
           "http://127.0.0.1:8283/api/ctrl/start_pull" pull_s_from_1
           sub_s_cascaded s_on_1_after_sub).
  - vm_compute. reflexivity.
  - reflexivity.
  - simpl. left. reflexivity.
  - exists "", "". reflexivity.
Defined.

Lemma OnSubStartHandler_unknown_node_no_dispatch_witness :
  exists s' evs,
    OnSubStartHandler config "RTMP" net_up (Some sub_s_at_9) s_on_1 = Some s' /\
    trace s' = (trace s_on_1 ++ evs)%list /\
    stream2ServerID s' = stream2ServerID s_on_1 /\
    dispatches evs = [] /\
    exists format, In (EvLog ERROR format) evs.
Proof.
  apply (OnSubStartHandler_unknown_node_no_dispatch config "RTMP" net_up
           sub_s_at_9 s_on_1).
  - reflexivity.
  - intros Hc. apply strings_Contains_spec in Hc. vm_compute in Hc. discriminate Hc.
  - reflexivity.
  - left. reflexivity.
Defined.

Lemma OnSubStartHandler_post_outcome_ignored_witness :
  exists s1 s2,
    OnSubStartHandler config "RTMP" net_up (Some sub_s_at_2) s_on_1 = Some s1 /\
    OnSubStartHandler config "RTMP" net_down (Some sub_s_at_2) s_on_1 = Some s2 /\
    stream2ServerID s1 = stream2ServerID s2 /\
    mutex s1 = mutex s2 /\
    dispatches (trace s1) = dispatches (trace s2).
Proof.
  apply (OnSubStartHandler_post_outcome_ignored config "RTMP" net_up net_down
           (Some sub_s_at_2) s_on_1).
  reflexivity.
Defined.

Lemma OnPubStopHandler_never_adds_witness :
  exists s',
    OnPubStopHandler (Some (PubStopInfo.mk "match1" "A")) match1_on_A = Some s' /\
    stream2ServerID s' ⊆ stream2ServerID match1_on_A.
Proof.
  apply (OnPubStopHandler_never_adds (Some (PubStopInfo.mk "match1" "A")) match1_on_A).
  reflexivity.
Defined.

Lemma OnPubStopHandler_owner_stop_deletes_node_key_witness :
  exists s',
    OnPubStopHandler (Some (PubStopInfo.mk "match1" "A")) match1_on_A = Some s' /\
    Lookup s' "A" = None /\
    forall key, key <> "A" -> Lookup s' key = Lookup match1_on_A key.
Proof.
  apply (OnPubStopHandler_owner_stop_deletes_node_key
           (PubStopInfo.mk "match1" "A") match1_on_A); reflexivity.
Defined.

Lemma OnPubStartHandler_republish_supersedes_witness :
  exists s1 s2 s2',
    OnPubStartHandler (Some (PubStartInfo.mk "match1" "A")) main_State = Some s1 /\
    OnPubStartHandler (Some (PubStartInfo.mk "match1" "B")) s1 = Some s2 /\
    OnPubStartHandler (Some (PubStartInfo.mk "match1" "B")) main_State = Some s2' /\
    stream2ServerID s2 = stream2ServerID s2'.
Proof.
  apply (OnPubStartHandler_republish_supersedes
           (PubStartInfo.mk "match1" "A") (PubStartInfo.mk "match1" "B") main_State);
    reflexivity.
Defined.

Lemma OnPubStopHandler_late_stop_keeps_new_owner_witness :
  exists s1 s2 s3,
    OnPubStartHandler (Some (PubStartInfo.mk "match1" "A")) main_State = Some s1 /\
    OnPubStartHandler (Some (PubStartInfo.mk "match1" "B")) s1 = Some s2 /\
    OnPubStopHandler (Some (PubStopInfo.mk "match1" "A")) s2 = Some s3 /\
    stream2ServerID s3 = stream2ServerID s2 /\
    Lookup s3 "match1" = Some "B".
Proof.
  apply (OnPubStopHandler_late_stop_keeps_new_owner "match1" "A" "B" main_State).
  - reflexivity.
  - discriminate.
Defined.

Lemma OnSubStartHandler_after_publish_witness :
  exists s1 s2 evs b,
    OnPubStartHandler (Some (PubStartInfo.mk "s" "1")) main_State = Some s1 /\
    OnSubStartHandler config "RTMP" net_up (Some sub_s_at_2) s1 = Some s2 /\
    trace s2 = (trace s1 ++ evs)%list /\
    dispatches evs = [("http://" +:+ apiAddr node_2 +:+ "/api/ctrl/start_pull", b)] /\
    b.(APICtrlStartPullReq.Addr) = rtmpAddr node_1 /\
    b.(APICtrlStartPullReq.StreamName) = "s".
Proof.
  apply (OnSubStartHandler_after_publish config "RTMP" net_up
           (PubStartInfo.mk "s" "1") sub_s_at_2 main_State node_2 node_1).
  - reflexivity.
  - reflexivity.
  - intros Hc. apply strings_Contains_spec in Hc. vm_compute in Hc. discriminate Hc.
  - reflexivity.
  - reflexivity.
  - reflexivity.
Defined.
